(** * snowballer.py: a shallow embedding and its verified properties

    The script walks a root folder, reads the modification time of every
    file, keeps the files modified inside a trailing window, reads their
    sizes and draws a size-weighted histogram that it saves as
    [snowball.png].

    Python [float]s are modelled as exact rationals ([Q]); Python [int]s as
    [Z] (or [nat] for the two counters, which only ever count upwards).
    The operating system is a record of oracles: the tree [os.walk] sees,
    and what [os.path.getmtime] and [os.path.getsize] answer for a path
    at the moment they are called. *)

From Stdlib Require Import ZArith QArith Qround Lqa Lia List String Ascii
  Bool Permutation DecimalString.
Import ListNotations.

Local Open Scope string_scope.
Local Open Scope list_scope.

(** ** Library functions the script calls *)

Module Posix.

(** [str.endswith("/")]. *)
Definition endswith_sep (s : string) : bool :=
  match String.get (String.length s - 1) s with
  | Some c => Ascii.eqb c "/"%char
  | None => false
  end.

(** [posixpath.join(a, b)] with two arguments. *)
Definition join (a b : string) : string :=
  if String.prefix "/" b then b
  else if (String.eqb a "" || endswith_sep a)%bool then a ++ b
  else a ++ "/" ++ b.

End Posix.

(** A directory as [os.scandir] lists it: the names of its entries that
    are not directories, and its subdirectories, both in listing order.
    A subdirectory the walk cannot list or does not enter (a symbolic
    link) stands here with no entries. *)
#[local] Unset Elimination Schemes.
Inductive Dir : Type :=
| MkDir (files : list string) (subdirs : list (string * Dir)).
#[local] Set Elimination Schemes.

Definition dir_files (d : Dir) : list string :=
  match d with MkDir files _ => files end.

Definition dir_subdirs (d : Dir) : list (string * Dir) :=
  match d with MkDir _ subdirs => subdirs end.

(** [os.walk(top)], top-down: one triple (path, subdirs, files) for [top],
    then the triples of each subdirectory, whose path is
    [join(top, dirname)]. *)
Fixpoint walk_dir (top : string) (d : Dir)
  : list (string * list string * list string) :=
  match d with
  | MkDir files subdirs =>
      (top, map fst subdirs, files)
      :: flat_map (fun sd => walk_dir (Posix.join top (fst sd)) (snd sd))
                  subdirs
  end.

(** [os.walk] is called without [onerror]: when [top] cannot be listed
    (it does not exist, or is not readable) the error of [scandir] is
    ignored and the walk yields nothing. *)
Definition os_walk (top : string) (tree : option Dir)
  : list (string * list string * list string) :=
  match tree with
  | None => []
  | Some d => walk_dir top d
  end.

(** ** Lines 36-43: gathering the file names *)

(** The body of the inner loop: [fns] and [badnum] after one [name]. *)
Definition scan_name (path : string) (st : list string * nat) (name : string)
  : list string * nat :=
  let '(fns, badnum) := st in
  if (String.length path + String.length name <? 256)%nat
  then (fns ++ [Posix.join path name], badnum)
  else (fns, S badnum).

(** The body of the outer loop. *)
Definition scan_triple (st : list string * nat)
  (t : string * list string * list string) : list string * nat :=
  let '(path, _, files) := t in
  fold_left (scan_name path) files st.

Definition gather (root : string) (tree : option Dir) : list string * nat :=
  fold_left scan_triple (os_walk root tree) ([], 0%nat).



(** ** NumPy and Matplotlib, in exact arithmetic *)

Local Open Scope Q_scope.

Definition Qltb (x y : Q) : bool := negb (Qle_bool y x).

Definition Qsum (l : list Q) : Q := fold_right Qplus 0 l.

(** Conversion of a float to an integer index truncates towards zero. *)
Definition Qtrunc (x : Q) : Z := Z.quot (Qnum x) (Zpos (Qden x)).

(** What a Python exception carries, as far as the script can raise one. *)
Inductive exn : Type :=
| OSError (filename : string)
| ValueError (msg : string).

Inductive result (A : Type) : Type :=
| Ok (a : A)
| Raised (e : exn).
Arguments Ok {A} a.
Arguments Raised {A} e.

Module Np.

(** [np.vectorize(f, otypes=[...])(xs)]: [f] on every element, in order;
    the first exception ends the call.  A size-0 input gives a size-0
    output. *)
Fixpoint vectorize_otypes (f : string -> option Z) (xs : list string)
  : result (list Z) :=
  match xs with
  | [] => Ok []
  | x :: xs' =>
      match f x with
      | None => Raised (OSError x)
      | Some v =>
          match vectorize_otypes f xs' with
          | Ok vs => Ok (v :: vs)
          | Raised e => Raised e
          end
      end
  end.

Definition size0_msg : string :=
  "cannot call `vectorize` on size 0 inputs unless `otypes` is set".

(** [np.vectorize(f)(xs)], no [otypes]: the output type is found by
    calling [f] on the first element, so a size-0 input is refused. *)
Definition vectorize (f : string -> option Z) (xs : list string)
  : result (list Z) :=
  match xs with
  | [] => Raised (ValueError size0_msg)
  | _ :: _ => vectorize_otypes f xs
  end.

(** Boolean-mask indexing [a[mask]]. *)
Fixpoint mask {A : Type} (a : list A) (m : list bool) : list A :=
  match a, m with
  | x :: a', b :: m' => if b then x :: mask a' m' else mask a' m'
  | _, _ => []
  end.

(** [np.sum] of a boolean array. *)
Definition count_true (m : list bool) : nat :=
  List.length (filter (fun b => b) m).

(** [np.linspace(start, stop, num)], end point included. *)
Definition linspace (start stop : Q) (num : nat) : list Q :=
  let step := (stop - start) / inject_Z (Z.of_nat (num - 1)) in
  map (fun i => if (S i =? num)%nat then stop
                else inject_Z (Z.of_nat i) * step + start)
      (seq 0 num).

(** [out[i] += w]; an index beyond the array leaves it as it is (the
    array is always allocated large enough, see [bincount]). *)
Fixpoint add_at (i : nat) (w : Q) (out : list Q) : list Q :=
  match out, i with
  | [], _ => []
  | o :: out', O => (o + w) :: out'
  | o :: out', S k => o :: add_at k w out'
  end.

(** [np.bincount(x, weights, minlength)] for non-negative [x]. *)
Definition bincount (x : list nat) (weights : list Q) (minlength : nat)
  : list Q :=
  fold_left (fun out iw => add_at (fst iw) (snd iw) out)
            (combine x weights)
            (repeat 0 (Nat.max minlength
                                 (match x with
                                  | [] => 0
                                  | _ :: _ => S (list_max x)
                                  end))).

(** The bin of a value that lies inside the range, with [bins]
    equal-width bins: all bins are half-open but the last, which holds
    its right edge too. *)
Definition bin_index (first_edge last_edge : Q) (bins : Z) (x : Q) : Z :=
  let f_index := (x - first_edge) / (last_edge - first_edge) * inject_Z bins in
  let index := Qtrunc f_index in
  if (index =? bins)%Z then (index - 1)%Z else index.

(** [np.histogram(a, bins, range, weights)] with an integer [bins]:
    returns the weighted counts and the bin edges.  Values outside the
    range are dropped, with their weights. *)
Definition histogram (a : list Q) (bins : Z) (range : Q * Q)
  (weights : list Q) : result (list Q * list Q) :=
  if negb (List.length weights =? List.length a)%nat then
    Raised (ValueError "weights should have the same shape as a.")
  else if (bins <? 1)%Z then
    Raised (ValueError "`bins` must be positive, when an integer")
  else
    let '(lo, hi) := range in
    if Qltb hi lo then
      Raised (ValueError "max must be larger than min in range parameter.")
    else
      let '(first_edge, last_edge) :=
        if Qeq_bool lo hi then (lo - 0.5, hi + 0.5) else (lo, hi) in
      let bin_edges := linspace first_edge last_edge (Z.to_nat bins + 1) in
      let kept :=
        filter (fun xw => Qle_bool first_edge (fst xw)
                          && Qle_bool (fst xw) last_edge)
               (combine a weights) in
      let indices :=
        map (fun xw => Z.to_nat (bin_index first_edge last_edge bins (fst xw)))
            kept in
      Ok (bincount indices (map snd kept) (Z.to_nat bins), bin_edges).

End Np.

(** ** The running script: console, output file, exceptions *)

(** What [ax.hist] draws and the labels set on the axes. *)
Record Figure : Type := MkFigure {
  title : string;
  ylabel : string;
  xlabel : string;
  xlim : Q * Q;
  n : list Q;      (* bar heights: the weighted count of every bin *)
  bins : list Q    (* the bin edges *)
}.

(** What a run leaves behind: the lines it printed, oldest first, and
    the image saved in the working directory, if any. *)
Record Process : Type := MkProcess {
  stdout : list string;
  snowball_png : option Figure
}.

Definition Py (A : Type) : Type := Process -> Process * result A.

Definition ret {A : Type} (a : A) : Py A := fun p => (p, Ok a).

Definition bind {A B : Type} (m : Py A) (k : A -> Py B) : Py B :=
  fun p =>
    match m p with
    | (p', Ok a) => k a p'
    | (p', Raised e) => (p', Raised e)
    end.

Notation "x <- m ;; k" := (bind m (fun x => k))
  (at level 61, m at next level, right associativity).
Notation "' pat <- m ;; k" :=
  (bind m (fun x => match x with pat => k end))
  (at level 61, pat pattern, m at next level, right associativity).
Notation "m ;; k" := (bind m (fun _ => k))
  (at level 61, right associativity).

Definition print (line : string) : Py unit :=
  fun p => (MkProcess (stdout p ++ [line]) (snowball_png p), Ok tt).

Definition call {A : Type} (r : result A) : Py A := fun p => (p, r).

Definition savefig (fig : Figure) : Py unit :=
  fun p => (MkProcess (stdout p) (Some fig), Ok tt).

(** [str(k)] for a count. *)
Definition str (k : nat) : string := NilZero.string_of_uint (Nat.to_uint k).

(** ** The script *)

(** The user settings of lines 29-30, the clock, and the file system as
    the script meets it. *)
Record World : Type := MkWorld {
  root : string;
  nmonths : Z;
  tree : option Dir;             (* under [root] during the walk; [None]
                                    when [root] cannot be listed *)
  getmtime : string -> option Z; (* line 52, converted to int64; [None]
                                    when the call raises *)
  getsize : string -> option Z;  (* line 67; [None] when the call raises *)
  ts : Q                         (* line 56 *)
}.

Definition sec2month : Q := 1.0 / (inject_Z (60 * 60 * 24 * 7) * 30.42).

Definition start (ts : Q) (nmonths : Z) : Q := ts - inject_Z nmonths / sec2month.

Definition end_ (ts : Q) : Q := ts.

(** Line 62, one element of the boolean array. *)
Definition in_range (start end_ : Q) (mtime : Z) : bool :=
  Qltb start (inject_Z mtime) && Qltb (inject_Z mtime) end_.

Definition ct (start end_ : Q) (mtimes : list Z) : list bool :=
  map (in_range start end_) mtimes.

(** Lines 50-86: from the array of file names to the saved plot. *)
Definition analyse (w : World) (fns : list string) : Py unit :=
  print "Reading file timestamps..." ;;
  mtimes <- call (Np.vectorize_otypes (getmtime w) fns) ;;
  let ts := ts w in
  let start := start ts (nmonths w) in
  let end_ := end_ ts in
  let ct := ct start end_ mtimes in
  print ("Files in date range: " ++ str (Np.count_true ct)) ;;
  print "Getting file sizes..." ;;
  sizes <- call (Np.vectorize (getsize w) (Np.mask fns ct)) ;;
  let sizes_MB := map (fun s => inject_Z s * 1e-6) sizes in
  print "Generating plot to estimate monthly data creation rate..." ;;
  let mtimes_mo :=
    map (fun m => (inject_Z m - ts) * sec2month) (Np.mask mtimes ct) in
  let start_mo := (start - ts) * sec2month in
  let end_mo := (end_ - ts) * sec2month in
  '(n, bins) <- call (Np.histogram mtimes_mo (nmonths w) (start_mo, end_mo)
                                   sizes_MB) ;;
  savefig {| title := "Est. Data Creation Rate In '" ++ root w ++ "'";
             ylabel := "MB per month";
             xlabel := "Month # (0 = now)";
             xlim := (start_mo, end_mo);
             n := n;
             bins := bins |} ;;
  print "Plot complete! Saved to 'snowball.png'".

(** Lines 34-48, then the rest. *)
Definition main (w : World) : Py unit :=
  print ("Folder: '" ++ root w ++ "'...") ;;
  print "Gathering recursive list of all files..." ;;
  let '(fns, badnum) := gather (root w) (tree w) in
  print ("Total files: " ++ str (List.length fns + badnum)) ;;
  (if (0 <? badnum)%nat
   then print (str badnum ++ " of those are being skipped because the full file path is over 255 characters.")
   else ret tt) ;;
  analyse w fns.

(** A run starts with an empty console and no image. *)
Definition run (w : World) : Process * result unit :=
  main w (MkProcess [] None).

(** * Notions the statements use *)


(** Every (path, name) pair the two loops visit, in the order they visit
    them. *)
Definition visited (root : string) (tree : option Dir)
  : list (string * string) :=
  flat_map (fun t => map (pair (fst (fst t))) (snd t)) (os_walk root tree).

(** The test of line 40. *)
Definition short (pn : string * string) : bool :=
  (String.length (fst pn) + String.length (snd pn) <? 256)%nat.

(** The name line 41 appends. *)
Definition joined (pn : string * string) : string :=
  Posix.join (fst pn) (snd pn).

(** A file name of 253 characters. *)
Definition name253 : string :=
  string_of_list_ascii (repeat "x"%char 253).

(** The value a read gives, where it succeeds. *)
Definition value (f : string -> option Z) (x : string) : Z :=
  match f x with
  | Some v => v
  | None => 0%Z
  end.

(** The figure lines 76-81 build from the result of [ax.hist]. *)
Definition figure (w : World) (n bins : list Q) : Figure :=
  {| title := "Est. Data Creation Rate In '" ++ root w ++ "'";
     ylabel := "MB per month";
     xlabel := "Month # (0 = now)";
     xlim := ((start (ts w) (nmonths w) - ts w) * sec2month,
              (end_ (ts w) - ts w) * sec2month);
     n := n;
     bins := bins |}.


(** Whether line 62 selects a file name. *)
Definition inside (w : World) (x : string) : bool :=
  in_range (start (ts w) (nmonths w)) (end_ (ts w)) (value (getmtime w) x).

(** The month offset of a file name, line 72. *)
Definition month (w : World) (x : string) : Q :=
  (inject_Z (value (getmtime w) x) - ts w) * sec2month.

(** The weight of a file name, line 68. *)
Definition megabytes (w : World) (x : string) : Q :=
  inject_Z (value (getsize w) x) * 1e-6.

(** Lines 73-74: the range of the histogram. *)
Definition start_mo (w : World) : Q :=
  (start (ts w) (nmonths w) - ts w) * sec2month.

Definition end_mo (w : World) : Q := (end_ (ts w) - ts w) * sec2month.

(** The bin of a file name. *)
Definition bucket (w : World) (x : string) : nat :=
  Z.to_nat (Np.bin_index (start_mo w) (end_mo w) (nmonths w) (month w x)).

(** The bar heights [ax.hist] returns for an array of file names. *)
Definition heights (w : World) (fns : list string) : list Q :=
  Np.bincount (map (bucket w) (filter (inside w) fns))
              (map (megabytes w) (filter (inside w) fns))
              (Z.to_nat (nmonths w)).

(** What lines 50-66 print when every time stamp is read. *)
Definition said_by_analyse (w : World) (fns : list string) : list string :=
  ["Reading file timestamps...";
   "Files in date range: " ++ str (List.length (filter (inside w) fns));
   "Getting file sizes..."]%string.

(** What lines 34-48 print. *)
Definition said_by_gather (w : World) : list string :=
  let '(fns, badnum) := gather (root w) (tree w) in
  ["Folder: '" ++ root w ++ "'...";
   "Gathering recursive list of all files...";
   "Total files: " ++ str (List.length fns + badnum)]%string
  ++ (if (0 <? badnum)%nat
      then [str badnum ++ " of those are being skipped because the full file path is over 255 characters."]%string
      else []).


(** The array of file names the script works on. *)
Definition fns (w : World) : list string := fst (gather (root w) (tree w)).

(** A file as the specification records it. *)
Record FileRecord : Type := MkFileRecord {
  path : string;
  modifiedTimestamp : Z;
  sizeBytes : Z
}.




(** Three files of 10, 20 and 30 MB, the first two a little over one
    window unit old, the third a little over five. *)
Definition example_tree : Dir :=
  MkDir ["a.txt"; "b.txt"] [("sub", MkDir ["c.txt"] [])].

(** The records of [example_tree], in the order of the walk. *)
Definition example_records : list FileRecord :=
  [MkFileRecord "/home/u/Documents/a.txt" (1573862400 - 18398016 - 10)
                10000000;
   MkFileRecord "/home/u/Documents/b.txt" (1573862400 - 18398016 - 20)
                20000000;
   MkFileRecord "/home/u/Documents/sub/c.txt" (1573862400 - 5 * 18398016 - 5)
                30000000].

(** A read that finds the record of a path, and fails without one. *)
Definition lookup (field : FileRecord -> Z) (records : list FileRecord)
  (x : string) : option Z :=
  option_map field (find (fun r => String.eqb (path r) x) records).

(** The settings of the script on [example_tree]. *)
Definition example_world : World :=
  MkWorld "/home/u/Documents" 24 (Some example_tree)
          (lookup modifiedTimestamp example_records)
          (lookup sizeBytes example_records)
          1573862400.

(** Two files; the second has vanished when its time stamp is read. *)
Definition vanished_world : World :=
  MkWorld "/home/u/Documents" 24 (Some (MkDir ["a.txt"; "b.txt"] []))
          (fun x => if String.eqb x "/home/u/Documents/b.txt" then None
                    else Some (1573862400 - 10)%Z)
          (fun x => if String.eqb x "/home/u/Documents/b.txt" then None
                    else Some 10000000%Z)
          1573862400.

(** One file, last modified 30 units of 18398016 seconds before the
    clock reading: the window reaches back 24 such units, so the file is
    outside it. *)
Definition stale_world : World :=
  MkWorld "/home/u/Documents" 24 (Some (MkDir ["old.txt"] []))
          (fun _ => Some (1573862400 - 30 * 18398016)%Z)
          (fun _ => Some 10000000%Z)
          1573862400.


(** [example_world], except that the size of a path the walk never
    meets cannot be read. *)
Definition guarded_world : World :=
  MkWorld "/home/u/Documents" 24 (Some example_tree)
          (lookup modifiedTimestamp example_records)
          (fun x => if String.eqb x "/home/u/Documents/elsewhere" then None
                    else lookup sizeBytes example_records x)
          1573862400.

(** The files of [example_world], with no month to look back. *)
Definition no_lookback_world : World :=
  MkWorld "/home/u/Documents" 0 (Some example_tree)
          (lookup modifiedTimestamp example_records)
          (lookup sizeBytes example_records)
          1573862400.

(** * Properties *)

(** ** The enumeration *)

Lemma scan_name_fold (path : string) (files : list string) :
  forall fns badnum,
    fold_left (scan_name path) files (fns, badnum)
    = (fns ++ map joined (filter short (map (pair path) files)),
       (badnum
        + List.length (filter (fun pn => negb (short pn))
                              (map (pair path) files)))%nat).
Proof.
  induction files as [|name files IH]; intros fns badnum; simpl.
  - now rewrite app_nil_r, Nat.add_0_r.
  - change (String.length path + String.length name <? 256)%nat
      with (short (path, name)).
    destruct (short (path, name)); simpl; rewrite IH.
    + now rewrite <- app_assoc.
    + f_equal. lia.
Qed.

Lemma scan_triple_fold (ts : list (string * list string * list string)) :
  forall fns badnum,
    let vs := flat_map (fun t => map (pair (fst (fst t))) (snd t)) ts in
    fold_left scan_triple ts (fns, badnum)
    = (fns ++ map joined (filter short vs),
       (badnum + List.length (filter (fun pn => negb (short pn)) vs))%nat).
Proof.
  induction ts as [|[[path sub] files] ts IH]; intros fns badnum; simpl.
  - now rewrite app_nil_r, Nat.add_0_r.
  - rewrite scan_name_fold. simpl in IH. rewrite IH.
    rewrite !filter_app, map_app, length_app, <- app_assoc.
    f_equal. lia.
Qed.

Lemma gather_spec (root : string) (tree : option Dir) :
  gather root tree
  = (map joined (filter short (visited root tree)),
     List.length (filter (fun pn => negb (short pn)) (visited root tree))).
Proof.
  unfold gather, visited. now rewrite scan_triple_fold.
Qed.







(** ** The window *)

Lemma Qltb_lt (x y : Q) : Qltb x y = true <-> x < y.
Proof.
  unfold Qltb. rewrite negb_true_iff. split.
  - intros H. apply Qnot_le_lt. intros Hle.
    apply Qle_bool_iff in Hle. congruence.
  - intros H. destruct (Qle_bool y x) eqn:E; [|reflexivity].
    apply Qle_bool_iff in E. exfalso. now apply (Qlt_not_le x y).
Qed.

Lemma in_range_iff (s e : Q) (m : Z) :
  in_range s e m = true <-> s < inject_Z m /\ inject_Z m < e.
Proof.
  unfold in_range. now rewrite andb_true_iff, !Qltb_lt.
Qed.

Lemma sec2month_pos : 0 < sec2month.
Proof. reflexivity. Qed.

Lemma sec2month_value : sec2month == / 18398016.
Proof. reflexivity. Qed.

Lemma start_eq (ts : Q) (nmonths : Z) :
  start ts nmonths == ts - inject_Z nmonths * 18398016.
Proof.
  unfold start. rewrite sec2month_value. field.
Qed.

(** C2 fails on the code: with the clock at 0 and 24 months the window
    starts 441552384 seconds back, which is 7 times the 24 months of
    2628288 seconds that are claimed.  For every clock value the window
    ends now and starts [nmonths] times 7 x 60 x 60 x 24 x 30.42 seconds
    before. *)
Theorem start_is_seven_times_too_early :
  start 0 24 == -441552384
  /\ ~ start 0 24 == 0 - 24 * (60 * 60 * 24 * 30.42)
  /\ forall (ts : Q) (nmonths : Z),
       end_ ts = ts
       /\ start ts nmonths
          == ts - inject_Z nmonths * (7 * (60 * 60 * 24 * 30.42)).
Proof.
  split; [reflexivity|]. split; [discriminate|].
  intros ts nmonths. split; [reflexivity|].
  rewrite start_eq.
  assert (E : 7 * (60 * 60 * 24 * 30.42) == 18398016) by reflexivity.
  now rewrite E.
Qed.


(** ** The vectorised reads *)

Lemma vectorize_otypes_ok (f : string -> option Z) (xs : list string) :
  (forall x, In x xs -> f x <> None) ->
  Np.vectorize_otypes f xs = Ok (map (value f) xs).
Proof.
  induction xs as [|x xs IH]; intros Hall; simpl; [reflexivity|].
  unfold value at 1.
  destruct (f x) as [v|] eqn:E.
  - rewrite IH; [reflexivity|]. intros y Hy. apply Hall. now right.
  - exfalso. apply (Hall x); [now left|assumption].
Qed.

Lemma vectorize_otypes_raises (f : string -> option Z) (xs : list string) :
  (exists x, In x xs /\ f x = None) ->
  exists x, In x xs /\ f x = None
            /\ Np.vectorize_otypes f xs = Raised (OSError x).
Proof.
  induction xs as [|x xs IH]; intros [y [Hin Hy]]; [destruct Hin|].
  simpl. destruct (f x) as [v|] eqn:E.
  - destruct Hin as [->|Hin]; [congruence|].
    destruct IH as [z [Hz [Hfz Hr]]]; [now exists y|].
    exists z. rewrite Hr. auto.
  - exists x. auto.
Qed.

Lemma vectorize_otypes_inv_ok (f : string -> option Z) (xs : list string)
  (vs : list Z) :
  Np.vectorize_otypes f xs = Ok vs ->
  (forall x, In x xs -> f x <> None) /\ vs = map (value f) xs.
Proof.
  revert vs. induction xs as [|x xs IH]; intros vs; simpl.
  - intros [= <-]. split; [intros x []|reflexivity].
  - unfold value at 1. destruct (f x) as [v|] eqn:E; [|discriminate].
    destruct (Np.vectorize_otypes f xs) as [vs'|] eqn:E'; [|discriminate].
    intros [= <-]. destruct (IH vs' eq_refl) as [Hall ->].
    split; [|reflexivity].
    intros y [<-|Hy]; [congruence|now apply Hall].
Qed.

Lemma mask_map_filter {A B : Type} (h : A -> B) (b : A -> bool)
  (xs : list A) :
  Np.mask (map h xs) (map b xs) = map h (filter b xs).
Proof.
  induction xs as [|x xs IH]; simpl; [reflexivity|].
  destruct (b x); simpl; now rewrite IH.
Qed.

Lemma count_true_map {A : Type} (b : A -> bool) (xs : list A) :
  Np.count_true (map b xs) = List.length (filter b xs).
Proof.
  unfold Np.count_true.
  induction xs as [|x xs IH]; simpl; [reflexivity|].
  destruct (b x); simpl; now rewrite IH.
Qed.

(** ** The script, step by step *)

Lemma analyse_steps (w : World) (fns : list string) (p : Process) :
  analyse w fns p
  = match Np.vectorize_otypes (getmtime w) fns with
    | Raised e =>
        (MkProcess (stdout p ++ ["Reading file timestamps..."])
                   (snowball_png p), Raised e)
    | Ok mtimes =>
        let c := ct (start (ts w) (nmonths w)) (end_ (ts w)) mtimes in
        let said :=
          ["Reading file timestamps...";
           "Files in date range: " ++ str (Np.count_true c);
           "Getting file sizes..."]%string in
        match Np.vectorize (getsize w) (Np.mask fns c) with
        | Raised e => (MkProcess (stdout p ++ said) (snowball_png p), Raised e)
        | Ok sizes =>
            let plotting :=
              "Generating plot to estimate monthly data creation rate..." in
            match
              Np.histogram
                (map (fun m => (inject_Z m - ts w) * sec2month)
                     (Np.mask mtimes c))
                (nmonths w)
                ((start (ts w) (nmonths w) - ts w) * sec2month,
                 (end_ (ts w) - ts w) * sec2month)
                (map (fun s => inject_Z s * 1e-6) sizes)
            with
            | Raised e =>
                (MkProcess (stdout p ++ said ++ [plotting]) (snowball_png p),
                 Raised e)
            | Ok (n, bins) =>
                (MkProcess
                   (stdout p ++ said
                    ++ [plotting; "Plot complete! Saved to 'snowball.png'"])
                   (Some (figure w n bins)),
                 Ok tt)
            end
        end
    end.
Proof.
  unfold analyse, bind, print, call, savefig.
  destruct (Np.vectorize_otypes (getmtime w) fns) as [mtimes|e];
    [|reflexivity].
  cbn [stdout snowball_png].
  destruct (Np.vectorize (getsize w) _) as [sizes|e].
  - cbn [stdout snowball_png].
    destruct (Np.histogram _ _ _ _) as [[n bins]|e];
      cbn [stdout snowball_png]; rewrite <- !app_assoc; reflexivity.
  - rewrite <- !app_assoc. reflexivity.
Qed.

(** ** The weighted histogram *)














Lemma Qtrunc_bounds (q : Q) (b : Z) :
  0 <= q -> q <= inject_Z b -> (0 <= Qtrunc q <= b)%Z.
Proof.
  destruct q as [num den]. unfold Qle, Qtrunc. simpl. intros H0 Hb.
  rewrite Z.quot_div_nonneg by lia. split.
  - apply Z.div_pos; lia.
  - apply Z.div_le_upper_bound; lia.
Qed.

Lemma bin_index_bounds (lo hi : Q) (bins : Z) (x : Q) :
  lo < hi -> (1 <= bins)%Z -> lo <= x -> x <= hi ->
  (0 <= Np.bin_index lo hi bins x < bins)%Z.
Proof.
  intros Hlohi Hbins Hlo Hhi. unfold Np.bin_index.
  assert (Hpos : 0 < hi - lo) by lra.
  assert (Hb : 0 <= inject_Z bins)
    by (change 0 with (inject_Z 0); rewrite <- Zle_Qle; lia).
  assert (H0 : 0 <= (x - lo) / (hi - lo))
    by (apply Qle_shift_div_l; [assumption|lra]).
  assert (H1 : (x - lo) / (hi - lo) <= 1)
    by (apply Qle_shift_div_r; [assumption|lra]).
  destruct (Qtrunc_bounds ((x - lo) / (hi - lo) * inject_Z bins) bins)
    as [Hge Hle].
  - now apply Qmult_le_0_compat.
  - rewrite <- (Qmult_1_l (inject_Z bins)) at 2.
    now apply Qmult_le_compat_r.
  - destruct (Z.eqb_spec
                (Qtrunc ((x - lo) / (hi - lo) * inject_Z bins)) bins); lia.
Qed.

Lemma filter_all {A : Type} (f : A -> bool) (l : list A) :
  Forall (fun a => f a = true) l -> filter f l = l.
Proof.
  induction 1 as [|a l Ha _ IH]; simpl; [reflexivity|].
  now rewrite Ha, IH.
Qed.

Lemma combine_map {A B C : Type} (f : A -> B) (g : A -> C) (l : list A) :
  combine (map f l) (map g l) = map (fun a => (f a, g a)) l.
Proof.
  induction l as [|a l IH]; simpl; [reflexivity|]. now rewrite IH.
Qed.

(** The histogram of values [x a] with weights [wt a], for [a] in [l],
    when every value lies in the range [lo, hi]. *)
Lemma histogram_in_range {A : Type} (x wt : A -> Q) (l : list A)
  (bins : Z) (lo hi : Q) :
  lo < hi -> (1 <= bins)%Z ->
  Forall (fun a => lo <= x a /\ x a <= hi) l ->
  Np.histogram (map x l) bins (lo, hi) (map wt l)
  = Ok (Np.bincount
          (map (fun a => Z.to_nat (Np.bin_index lo hi bins (x a))) l)
          (map wt l) (Z.to_nat bins),
        Np.linspace lo hi (Z.to_nat bins + 1)).
Proof.
  intros Hlohi Hbins Hall. unfold Np.histogram.
  rewrite !length_map, Nat.eqb_refl. cbn [negb].
  destruct (Z.ltb_spec bins 1) as [Hlt|_]; [lia|].
  destruct (Qltb hi lo) eqn:E1.
  { apply Qltb_lt in E1. lra. }
  destruct (Qeq_bool lo hi) eqn:E2.
  { apply Qeq_bool_iff in E2. lra. }
  rewrite combine_map, filter_all.
  - rewrite !map_map. reflexivity.
  - apply Forall_map. apply Forall_impl with (2 := Hall).
    intros a [H1 H2]. cbn [fst].
    apply andb_true_iff. split; now apply Qle_bool_iff.
Qed.

(** ** What the histogram holds *)

Lemma mask_filter {A : Type} (b : A -> bool) (xs : list A) :
  Np.mask xs (map b xs) = filter b xs.
Proof.
  rewrite <- (map_id xs) at 1. rewrite mask_map_filter. apply map_id.
Qed.

(** Line 62 on the time stamps that were read is a filter of the file
    names by [inside]. *)
Ltac selection w :=
  unfold ct; rewrite map_map;
  change (fun x => in_range _ _ (value (getmtime w) x)) with (inside w);
  rewrite mask_filter, count_true_map.

Lemma window_open (w : World) (x : string) :
  inside w x = true ->
  start_mo w < end_mo w /\ (1 <= nmonths w)%Z
  /\ start_mo w <= month w x /\ month w x <= end_mo w.
Proof.
  unfold inside. rewrite in_range_iff. unfold end_. intros [H1 H2].
  pose proof sec2month_pos as Hs.
  assert (Hn : 0 < inject_Z (nmonths w))
    by (rewrite start_eq in H1; lra).
  change 0 with (inject_Z 0) in Hn. rewrite <- Zlt_Qlt in Hn.
  unfold start_mo, end_mo, month, end_.
  repeat split.
  - apply Qmult_lt_compat_r; [assumption|lra].
  - lia.
  - apply Qmult_le_compat_r; lra.
  - apply Qmult_le_compat_r; lra.
Qed.

Lemma bucket_lt (w : World) (x : string) :
  inside w x = true -> (bucket w x < Z.to_nat (nmonths w))%nat.
Proof.
  intros Hin. destruct (window_open w x Hin) as (H1 & H2 & H3 & H4).
  unfold bucket.
  pose proof (bin_index_bounds _ _ _ _ H1 H2 H3 H4). lia.
Qed.


(** When every read succeeds and some file is selected, the script runs
    to its end and saves the figure of [heights]. *)
Lemma analyse_ok (w : World) (fns : list string) (p : Process) :
  (forall x, In x fns -> getmtime w x <> None) ->
  (forall x, In x fns -> inside w x = true -> getsize w x <> None) ->
  (exists x, In x fns /\ inside w x = true) ->
  analyse w fns p
  = (MkProcess
       (stdout p ++ said_by_analyse w fns
        ++ ["Generating plot to estimate monthly data creation rate...";
            "Plot complete! Saved to 'snowball.png'"])
       (Some (figure w (heights w fns)
                     (Np.linspace (start_mo w) (end_mo w)
                                  (Z.to_nat (nmonths w) + 1)))),
     Ok tt).
Proof.
  intros Hm Hs [x0 [Hx0 Hin0]].
  rewrite analyse_steps, vectorize_otypes_ok by assumption. cbn zeta.
  selection w.
  assert (Hne : filter (inside w) fns <> []).
  { intros E. assert (Hx : In x0 (filter (inside w) fns))
      by (apply filter_In; auto).
    rewrite E in Hx. destruct Hx. }
  unfold Np.vectorize.
  destruct (filter (inside w) fns) as [|k ks] eqn:Ek; [congruence|].
  rewrite <- Ek.
  rewrite vectorize_otypes_ok.
  2: { intros x Hx. apply filter_In in Hx. now apply Hs. }
  rewrite mask_map_filter, !map_map.
  change (map (fun x => (inject_Z (value (getmtime w) x) - ts w) * sec2month))
    with (map (month w)).
  change (map (fun x => inject_Z (value (getsize w) x) * 1e-6))
    with (map (megabytes w)).
  destruct (window_open w x0 Hin0) as (Hlohi & Hbins & _).
  fold (start_mo w) (end_mo w).
  rewrite (histogram_in_range (month w) (megabytes w)); try assumption.
  - reflexivity.
  - apply Forall_forall. intros x Hx. apply filter_In in Hx.
    destruct (window_open w x (proj2 Hx)) as (_ & _ & H3 & H4). auto.
Qed.

Lemma analyse_mtime_fails (w : World) (fns : list string) (p : Process) :
  (exists x, In x fns /\ getmtime w x = None) ->
  exists x,
    In x fns /\ getmtime w x = None
    /\ analyse w fns p
       = (MkProcess (stdout p ++ ["Reading file timestamps..."])
                    (snowball_png p),
          Raised (OSError x)).
Proof.
  intros Hex.
  destruct (vectorize_otypes_raises _ _ Hex) as [x [Hin [Hx Hr]]].
  exists x. rewrite analyse_steps, Hr. auto.
Qed.

(** An exception of the size step ends the run where it is raised. *)
Lemma analyse_size_raises (w : World) (fns : list string) (p : Process)
  (e : exn) :
  (forall x, In x fns -> getmtime w x <> None) ->
  Np.vectorize (getsize w) (filter (inside w) fns) = Raised e ->
  analyse w fns p
  = (MkProcess (stdout p ++ said_by_analyse w fns) (snowball_png p),
     Raised e).
Proof.
  intros Hm E.
  rewrite analyse_steps, vectorize_otypes_ok by assumption. cbn zeta.
  selection w. rewrite E. reflexivity.
Qed.

Lemma analyse_size_fails (w : World) (fns : list string) (p : Process) :
  (forall x, In x fns -> getmtime w x <> None) ->
  (exists x, In x fns /\ inside w x = true /\ getsize w x = None) ->
  exists x,
    In x fns /\ inside w x = true /\ getsize w x = None
    /\ analyse w fns p
       = (MkProcess (stdout p ++ said_by_analyse w fns) (snowball_png p),
          Raised (OSError x)).
Proof.
  intros Hm [y [Hy [Hin Hs]]].
  destruct (vectorize_otypes_raises (getsize w) (filter (inside w) fns))
    as [x [Hx [Hsx Hr]]].
  { exists y. split; [apply filter_In; auto|assumption]. }
  apply filter_In in Hx. destruct Hx as [Hx Hix].
  exists x. repeat split; try assumption.
  apply analyse_size_raises; [assumption|].
  unfold Np.vectorize.
  destruct (filter (inside w) fns) as [|k ks] eqn:Ek.
  - simpl in Hr. discriminate.
  - exact Hr.
Qed.

Lemma analyse_nothing_selected (w : World) (fns : list string) (p : Process) :
  (forall x, In x fns -> getmtime w x <> None) ->
  (forall x, In x fns -> inside w x = false) ->
  analyse w fns p
  = (MkProcess
       (stdout p ++ ["Reading file timestamps..."; "Files in date range: 0";
                     "Getting file sizes..."])
       (snowball_png p),
     Raised (ValueError Np.size0_msg)).
Proof.
  intros Hm Hout.
  assert (E : filter (inside w) fns = []).
  { destruct (filter (inside w) fns) as [|k ks] eqn:Ek; [reflexivity|].
    assert (Hk : In k (filter (inside w) fns)) by (rewrite Ek; now left).
    apply filter_In in Hk. destruct Hk as [Hk1 Hk2].
    rewrite (Hout k Hk1) in Hk2. discriminate. }
  rewrite (analyse_size_raises w fns p (ValueError Np.size0_msg) Hm).
  - unfold said_by_analyse. rewrite E. reflexivity.
  - rewrite E. reflexivity.
Qed.

(** A run that ends well has read every time stamp, has selected some
    file and has read the size of every selected file. *)
Lemma analyse_ok_inv (w : World) (fns : list string) (p : Process) :
  snd (analyse w fns p) = Ok tt ->
  (forall x, In x fns -> getmtime w x <> None)
  /\ (forall x, In x fns -> inside w x = true -> getsize w x <> None)
  /\ (exists x, In x fns /\ inside w x = true).
Proof.
  intros Hok.
  assert (Hm : forall x, In x fns -> getmtime w x <> None).
  { destruct (Np.vectorize_otypes (getmtime w) fns) as [mtimes|e] eqn:E.
    - now apply vectorize_otypes_inv_ok in E.
    - rewrite analyse_steps, E in Hok. discriminate. }
  split; [assumption|].
  destruct (Np.vectorize (getsize w) (filter (inside w) fns)) as [sizes|e]
    eqn:E.
  2: { rewrite (analyse_size_raises w fns p e Hm E) in Hok. discriminate. }
  unfold Np.vectorize in E.
  destruct (filter (inside w) fns) as [|k ks] eqn:Ek; [discriminate|].
  rewrite <- Ek in *.
  apply vectorize_otypes_inv_ok in E. destruct E as [Hs _].
  split.
  - intros x Hx Hin. apply Hs, filter_In. auto.
  - assert (Hk : In k (filter (inside w) fns)) by (rewrite Ek; now left).
    apply filter_In in Hk. now exists k.
Qed.

Lemma main_steps (w : World) (p : Process) :
  main w p
  = analyse w (fst (gather (root w) (tree w)))
            (MkProcess (stdout p ++ said_by_gather w) (snowball_png p)).
Proof.
  unfold main, said_by_gather, bind, print, ret.
  destruct (gather (root w) (tree w)) as [fns badnum].
  cbn [stdout snowball_png fst].
  destruct (0 <? badnum)%nat; cbn [stdout snowball_png];
    rewrite <- !app_assoc; reflexivity.
Qed.

Lemma analyse_saves_only_at_the_end (w : World) (fns : list string)
  (p : Process) (fig : Figure) :
  snowball_png p = None ->
  snowball_png (fst (analyse w fns p)) = Some fig ->
  snd (analyse w fns p) = Ok tt.
Proof.
  intros Hp. rewrite analyse_steps.
  destruct (Np.vectorize_otypes (getmtime w) fns) as [mtimes|e]; cbn zeta.
  - destruct (Np.vectorize (getsize w) _) as [sizes|e].
    + destruct (Np.histogram _ _ _ _) as [[n bins]|e]; cbn [fst snd];
        cbn [snowball_png]; congruence.
    + cbn [fst snd snowball_png]. congruence.
  - cbn [fst snd snowball_png]. congruence.
Qed.





Lemma Qsum_nonneg (l : list Q) : Forall (Qle 0) l -> 0 <= Qsum l.
Proof.
  induction 1 as [|q l Hq _ IH]; simpl; [apply Qle_refl|]. lra.
Qed.




Lemma nonneg_nth (l : list Q) :
  (forall i, 0 <= nth i l 0) -> Forall (Qle 0) l.
Proof.
  induction l as [|q l IH]; intros Hnth; constructor.
  - apply (Hnth 0%nat).
  - apply IH. intros i. apply (Hnth (S i)).
Qed.


(** ** Whole runs *)

Lemma run_steps (w : World) :
  run w = analyse w (fns w) (MkProcess (said_by_gather w) None).
Proof.
  unfold run. now rewrite main_steps.
Qed.





(** The scenario of the specification, in the units the script really
    uses: the 10 MB and 20 MB files share the bucket just before the
    last, the 30 MB file is alone four buckets earlier, and the other
    buckets are empty. *)
Example example_world_buckets :
  snd (run example_world) = Ok tt
  /\ match snowball_png (fst (run example_world)) with
     | Some fig =>
         Forall2 Qeq (n fig)
                 (repeat 0 18 ++ [30] ++ repeat 0 3 ++ [30] ++ [0])
     | None => False
     end.
Proof.
  split; [reflexivity|]. vm_compute. repeat constructor.
Qed.

(** C6, as stated, fails: with a root that cannot be listed the run goes
    through the gathering and the reading of time stamps, and ends in
    the size step with the [ValueError] of [np.vectorize]; no error of
    the file system is raised. *)
Lemma missing_root_is_no_filesystem_error :
  run (MkWorld "/home/u/Documents" 24 None (fun _ => None) (fun _ => None)
               1573862400)
  = (MkProcess ["Folder: '/home/u/Documents'...";
                "Gathering recursive list of all files...";
                "Total files: 0";
                "Reading file timestamps...";
                "Files in date range: 0";
                "Getting file sizes..."]
               None,
     Raised (ValueError Np.size0_msg))
  /\ ~ (exists filename,
          snd (run (MkWorld "/home/u/Documents" 24 None (fun _ => None)
                            (fun _ => None) 1573862400))
          = Raised (OSError filename)).
Proof.
  split; [reflexivity|]. intros [filename H]. discriminate H.
Qed.

(** C6, amended: when the root cannot be listed, the walk yields
    nothing and raises nothing; the script reports 0 files, reads no
    time stamp, selects no file and stops in the size step with the
    [ValueError] of [np.vectorize] on a size-0 input, before the
    histogram; no image is saved. *)
Theorem missing_root_aborts_at_sizes (root : string) (nmonths : Z)
  (getmtime getsize : string -> option Z) (ts : Q) :
  run (MkWorld root nmonths None getmtime getsize ts)
  = (MkProcess ["Folder: '" ++ root ++ "'...";
                "Gathering recursive list of all files...";
                "Total files: 0";
                "Reading file timestamps...";
                "Files in date range: 0";
                "Getting file sizes..."]%string
               None,
     Raised (ValueError Np.size0_msg)).
Proof. reflexivity. Qed.

Lemma inside_some (w : World) (x : string) (m : Z) :
  getmtime w x = Some m ->
  inside w x = in_range (start (ts w) (nmonths w)) (end_ (ts w)) m.
Proof.
  intros H. unfold inside, value. now rewrite H.
Qed.

(** C7, as stated, fails: one file that cannot be read ends the run with
    its [OSError]; nothing is skipped and no image is saved. *)
Lemma vanished_file_ends_the_run :
  run vanished_world
  = (MkProcess ["Folder: '/home/u/Documents'...";
                "Gathering recursive list of all files...";
                "Total files: 2";
                "Reading file timestamps..."]
               None,
     Raised (OSError "/home/u/Documents/b.txt")).
Proof. reflexivity. Qed.

(** C7, amended: when the time stamp of a gathered file cannot be read,
    or the size of a selected file cannot be read, the run ends with
    the [OSError] of such a file; no file is skipped, no bucket is
    computed and no image is saved. *)
Theorem failed_read_ends_the_run (w : World) :
  (exists x, In x (fns w) /\ getmtime w x = None)
  \/ ((forall x, In x (fns w) -> getmtime w x <> None)
      /\ exists x m,
           In x (fns w) /\ getmtime w x = Some m
           /\ in_range (start (ts w) (nmonths w)) (end_ (ts w)) m = true
           /\ getsize w x = None) ->
  exists x,
    In x (fns w)
    /\ (getmtime w x = None \/ getsize w x = None)
    /\ snd (run w) = Raised (OSError x)
    /\ snowball_png (fst (run w)) = None.
Proof.
  intros [Hm|[Hm [y [m (Hy & Hmy & Hin & Hsy)]]]]; rewrite run_steps.
  - destruct (analyse_mtime_fails w (fns w)
                (MkProcess (said_by_gather w) None) Hm)
      as [x (Hx & Hmx & ->)].
    exists x. auto.
  - destruct (analyse_size_fails w (fns w)
                (MkProcess (said_by_gather w) None) Hm)
      as [x (Hx & _ & Hsx & ->)].
    + exists y. rewrite (inside_some w y m Hmy). auto.
    + exists x. auto.
Qed.

(** The theorem on [vanished_world]. *)
Lemma failed_read_ends_the_run_example :
  exists x,
    In x (fns vanished_world)
    /\ (getmtime vanished_world x = None \/ getsize vanished_world x = None)
    /\ snd (run vanished_world) = Raised (OSError x)
    /\ snowball_png (fst (run vanished_world)) = None.
Proof.
  apply (failed_read_ends_the_run vanished_world).
  left. exists "/home/u/Documents/b.txt". split; [|reflexivity].
  right. now left.
Defined.



Lemma add_at_nonneg (i : nat) (q : Q) (out : list Q) :
  0 <= q -> Forall (Qle 0) out -> Forall (Qle 0) (Np.add_at i q out).
Proof.
  intros Hq Hout. revert i.
  induction Hout as [|o out Ho Hout IH]; intros [|i]; simpl;
    constructor; auto.
  lra.
Qed.

Lemma bincount_nonneg (x : list nat) (weights : list Q) (minlength : nat) :
  Forall (Qle 0) weights -> Forall (Qle 0) (Np.bincount x weights minlength).
Proof.
  intros Hw. unfold Np.bincount.
  assert (Hzero : Forall (Qle 0)
                    (repeat 0 (Nat.max minlength
                                 match x with
                                 | [] => 0%nat
                                 | _ :: _ => S (list_max x)
                                 end)))
    by (apply Forall_forall; intros q Hq; apply repeat_spec in Hq;
        subst; apply Qle_refl).
  revert Hzero. generalize (repeat 0 (Nat.max minlength
                                       match x with
                                       | [] => 0%nat
                                       | _ :: _ => S (list_max x)
                                       end)).
  assert (Hc : Forall (fun iw => 0 <= snd iw) (combine x weights)).
  { apply Forall_forall. intros [i q] Hiq. apply in_combine_r in Hiq.
    rewrite Forall_forall in Hw. now apply Hw. }
  induction Hc as [|[i q] l Hq _ IH]; intros out Hout; simpl;
    [assumption|].
  apply IH. now apply add_at_nonneg.
Qed.

(** C9: when no file has a negative size, every bucket of a saved
    figure has a non-negative total. *)
Theorem buckets_are_nonnegative (w : World) :
  (forall x s, getsize w x = Some s -> (0 <= s)%Z) ->
  forall fig,
    snowball_png (fst (run w)) = Some fig -> Forall (Qle 0) (n fig).
Proof.
  intros Hsize fig Hfig. rewrite run_steps in Hfig.
  pose proof (analyse_saves_only_at_the_end w (fns w)
                (MkProcess (said_by_gather w) None) fig eq_refl Hfig)
    as Hok.
  destruct (analyse_ok_inv w (fns w) _ Hok) as (Hm & Hs & Hex).
  rewrite analyse_ok in Hfig by assumption.
  injection Hfig as <-. cbn [n figure]. unfold heights.
  apply bincount_nonneg, Forall_map, Forall_forall. intros x _.
  unfold megabytes, value.
  apply Qmult_le_0_compat; [|discriminate].
  change 0 with (inject_Z 0). rewrite <- Zle_Qle.
  destruct (getsize w x) as [s|] eqn:E; [now apply (Hsize x)|lia].
Qed.

(** The theorem on the figure [example_world] saves. *)
Lemma buckets_are_nonnegative_example :
  exists fig,
    snowball_png (fst (run example_world)) = Some fig
    /\ Forall (Qle 0) (n fig).
Proof.
  eexists. split; [reflexivity|].
  apply (buckets_are_nonnegative example_world); [|reflexivity].
  intros x s. unfold example_world, getsize, lookup.
  destruct (find _ _) as [r|] eqn:E; [|discriminate].
  intros [= <-]. apply find_some in E. destruct E as [Hr _].
  repeat (destruct Hr as [<-|Hr]; [simpl; lia|]). destruct Hr.
Defined.

(** C10: when every time stamp is read and no gathered file lies in the
    window, the size step raises the [ValueError] of [np.vectorize] on a
    size-0 input; the run ends there, after announcing the size step,
    and saves no image. *)
Theorem empty_selection_aborts (w : World) :
  (forall x, In x (fns w) ->
             exists m, getmtime w x = Some m
                       /\ in_range (start (ts w) (nmonths w)) (end_ (ts w)) m
                          = false) ->
  run w
  = (MkProcess
       (said_by_gather w
        ++ ["Reading file timestamps..."; "Files in date range: 0";
            "Getting file sizes..."])
       None,
     Raised (ValueError Np.size0_msg)).
Proof.
  intros Hout. rewrite run_steps.
  apply (analyse_nothing_selected w (fns w) (MkProcess (said_by_gather w) None)).
  - intros x Hx. destruct (Hout x Hx) as [m [Hm _]]. congruence.
  - intros x Hx. destruct (Hout x Hx) as [m [Hm Hr]].
    now rewrite (inside_some w x m Hm).
Qed.

(** The theorem on [stale_world]. *)
Lemma empty_selection_aborts_example :
  run stale_world
  = (MkProcess
       (said_by_gather stale_world
        ++ ["Reading file timestamps..."; "Files in date range: 0";
            "Getting file sizes..."])
       None,
     Raised (ValueError Np.size0_msg)).
Proof.
  apply (empty_selection_aborts stale_world).
  intros x Hx. exists (1573862400 - 30 * 18398016)%Z.
  split; reflexivity.
Defined.

(** * Further properties of the script *)

Lemma badnum_counts_long (root : string) (tree : option Dir) :
  snd (gather root tree)
  = List.length
      (filter (fun pn =>
                 (256 <=? String.length (fst pn) + String.length (snd pn))%nat)
              (visited root tree)).
Proof.
  rewrite gather_spec. cbn [snd].
  f_equal. apply filter_ext. intros pn. unfold short.
  rewrite Nat.leb_antisym. reflexivity.
Qed.

(** ** What the console shows *)

Lemma analyse_says_reading (w : World) (names : list string) (p : Process) :
  exists rest,
    stdout (fst (analyse w names p))
    = stdout p ++ "Reading file timestamps..." :: rest.
Proof.
  rewrite analyse_steps.
  destruct (Np.vectorize_otypes (getmtime w) names) as [mtimes|e]; cbn zeta.
  - destruct (Np.vectorize (getsize w) _) as [sizes|e].
    + destruct (Np.histogram _ _ _ _) as [[n bins]|e]; eexists; reflexivity.
    + eexists; reflexivity.
  - eexists; reflexivity.
Qed.


(** X2: the fourth line is the warning about skipped files, with their
    number, exactly when some file has a path and a name of 256
    characters or more together; otherwise the fourth line already
    announces the reading of time stamps. *)
Theorem skip_warning_line (w : World) :
  (0 < List.length
         (filter (fun pn =>
                    (256 <=? String.length (fst pn)
                             + String.length (snd pn))%nat)
                 (visited (root w) (tree w))) ->
   nth 3 (stdout (fst (run w))) ""
   = (str (List.length
             (filter (fun pn =>
                        (256 <=? String.length (fst pn)
                                 + String.length (snd pn))%nat)
                     (visited (root w) (tree w))))
      ++ " of those are being skipped because the full file path is over 255 characters.")%string)%nat
  /\ (List.length
        (filter (fun pn =>
                   (256 <=? String.length (fst pn)
                            + String.length (snd pn))%nat)
                (visited (root w) (tree w))) = 0%nat ->
      nth 3 (stdout (fst (run w))) "" = "Reading file timestamps...").
Proof.
  rewrite run_steps.
  destruct (analyse_says_reading w (fns w)
              (MkProcess (said_by_gather w) None)) as [rest ->].
  cbn [stdout]. unfold said_by_gather.
  pose proof (badnum_counts_long (root w) (tree w)) as Hg.
  destruct (gather (root w) (tree w)) as [names badnum].
  cbn [snd] in Hg. rewrite <- Hg. cbn [app].
  split; intros Hk.
  - apply Nat.ltb_lt in Hk. rewrite Hk. reflexivity.
  - rewrite Hk. reflexivity.
Qed.

(** X3: when every time stamp is read, the run prints the number of
    gathered files whose time stamp lies in the window, whether or not
    it fails afterwards. *)
Theorem files_in_range_line (w : World) :
  (forall x, In x (fns w) -> getmtime w x <> None) ->
  nth (List.length (said_by_gather w) + 1) (stdout (fst (run w))) ""
  = ("Files in date range: "
     ++ str (List.length (filter (inside w) (fns w))))%string.
Proof.
  intros Hm. rewrite run_steps, analyse_steps.
  rewrite vectorize_otypes_ok by assumption. cbn zeta. selection w.
  destruct (Np.vectorize (getsize w) _) as [sizes|e].
  - destruct (Np.histogram _ _ _ _) as [[n bins]|e]; cbn [fst stdout];
      rewrite app_nth2 by lia;
      replace (List.length (said_by_gather w) + 1
               - List.length (said_by_gather w))%nat with 1%nat by lia;
      reflexivity.
  - cbn [fst stdout]. rewrite app_nth2 by lia.
    replace (List.length (said_by_gather w) + 1
             - List.length (said_by_gather w))%nat with 1%nat by lia.
    reflexivity.
Qed.

(** The theorem on [stale_world], whose run fails after the line. *)
Lemma files_in_range_line_example :
  nth (List.length (said_by_gather stale_world) + 1)
      (stdout (fst (run stale_world))) ""
  = ("Files in date range: "
     ++ str (List.length (filter (inside stale_world) (fns stale_world))))%string.
Proof.
  apply (files_in_range_line stale_world).
  intros x _. discriminate.
Defined.

(** ** How a run can end *)


Lemma last_app_cons {A : Type} (l l' : list A) (a d : A) :
  last (l ++ a :: l') d = last (a :: l') d.
Proof.
  induction l as [|b l IH]; [reflexivity|].
  cbn [app]. rewrite <- IH. simpl. destruct (l ++ a :: l') eqn:E;
    [destruct l; discriminate|reflexivity].
Qed.

(** X4: a run saves the image exactly when it ends without an
    exception, and exactly then its last line is the one that says the
    plot is complete. *)
Theorem image_saved_iff_complete (w : World) :
  (snd (run w) = Ok tt <-> exists fig, snowball_png (fst (run w)) = Some fig)
  /\ (snd (run w) = Ok tt
      <-> last (stdout (fst (run w))) ""
          = "Plot complete! Saved to 'snowball.png'").
Proof.
  rewrite run_steps, analyse_steps.
  destruct (Np.vectorize_otypes (getmtime w) (fns w)) as [mtimes|e];
    cbn zeta;
    [destruct (Np.vectorize (getsize w) _) as [sizes|e];
     [destruct (Np.histogram _ _ _ _) as [[n bins]|e]|]|];
    cbn [fst snd stdout snowball_png app]; rewrite last_app_cons;
    cbn [last]; (split; split; intros H);
    try reflexivity; try discriminate H; eauto;
    destruct H; discriminate.
Qed.

Lemma inside_in_range (w : World) (x : string) :
  getmtime w x <> None ->
  inside w x = true ->
  exists m, getmtime w x = Some m
            /\ in_range (start (ts w) (nmonths w)) (end_ (ts w)) m = true.
Proof.
  intros Hm Hin. destruct (getmtime w x) as [m|] eqn:E; [|congruence].
  exists m. split; [reflexivity|]. now rewrite <- (inside_some w x m E).
Qed.



(** X7: with no month to look back, or a negative number of them, the
    window is empty: no file is selected, the run ends with an
    exception and no image is saved. *)
Theorem no_lookback_no_image (w : World) :
  (nmonths w <= 0)%Z ->
  (forall m, in_range (start (ts w) (nmonths w)) (end_ (ts w)) m = false)
  /\ snd (run w) <> Ok tt
  /\ snowball_png (fst (run w)) = None.
Proof.
  intros Hn.
  assert (Hnone : forall x, inside w x = false).
  { intros x. destruct (inside w x) eqn:E; [|reflexivity].
    destruct (window_open w x E) as (_ & H1 & _). lia. }
  assert (Hfail : snd (run w) <> Ok tt).
  { rewrite run_steps. intros Hok. apply analyse_ok_inv in Hok.
    destruct Hok as (_ & _ & [x [_ Hin]]).
    rewrite Hnone in Hin. discriminate. }
  split; [|split; [assumption|]].
  - intros m. apply not_true_is_false. rewrite in_range_iff.
    unfold end_. rewrite start_eq. intros [H1 H2].
    assert (inject_Z (nmonths w) <= 0)
      by (change 0 with (inject_Z 0); now rewrite <- Zle_Qle).
    lra.
  - destruct (snowball_png (fst (run w))) as [fig|] eqn:E; [|reflexivity].
    exfalso. apply Hfail. rewrite run_steps in *.
    now apply (analyse_saves_only_at_the_end w (fns w)
                 (MkProcess (said_by_gather w) None) fig).
Qed.

(** The theorem on [no_lookback_world]. *)
Lemma no_lookback_no_image_example :
  (forall m,
      in_range (start (ts no_lookback_world) (nmonths no_lookback_world))
               (end_ (ts no_lookback_world)) m = false)
  /\ snd (run no_lookback_world) <> Ok tt
  /\ snowball_png (fst (run no_lookback_world)) = None.
Proof.
  apply (no_lookback_no_image no_lookback_world). simpl. lia.
Defined.

(** X8: looking further back never loses a file: a time stamp selected
    with some number of months is selected with every larger number. *)
Theorem longer_lookback_keeps (ts : Q) (nmonths nmonths' : Z) (mtime : Z) :
  (nmonths <= nmonths')%Z ->
  in_range (start ts nmonths) (end_ ts) mtime = true ->
  in_range (start ts nmonths') (end_ ts) mtime = true.
Proof.
  intros Hle. rewrite !in_range_iff, !start_eq. intros [H1 H2].
  split; [|assumption].
  assert (inject_Z nmonths <= inject_Z nmonths') by now rewrite <- Zle_Qle.
  lra.
Qed.

(** The theorem for a file 30 days old, with 1 and with 24 months. *)
Lemma longer_lookback_keeps_example :
  in_range (start 1573862400 24) (end_ 1573862400) (1573862400 - 2592000)
  = true.
Proof.
  apply (longer_lookback_keeps 1573862400 1 24); [lia|reflexivity].
Defined.

(** ** The geometry of the histogram *)

Lemma run_saved (w : World) (fig : Figure) :
  snowball_png (fst (run w)) = Some fig ->
  (1 <= nmonths w)%Z
  /\ fig = figure w (heights w (fns w))
                  (Np.linspace (start_mo w) (end_mo w)
                               (Z.to_nat (nmonths w) + 1)).
Proof.
  intros Hfig. rewrite run_steps in Hfig.
  pose proof (analyse_saves_only_at_the_end w (fns w)
                (MkProcess (said_by_gather w) None) fig eq_refl Hfig)
    as Hok.
  destruct (analyse_ok_inv w (fns w) _ Hok) as (Hm & Hs & Hex).
  rewrite analyse_ok in Hfig by assumption.
  injection Hfig as <-. split; [|reflexivity].
  destruct Hex as [x [_ Hin]].
  now destruct (window_open w x Hin) as (_ & H1 & _).
Qed.

Lemma start_mo_value (w : World) : start_mo w == - inject_Z (nmonths w).
Proof.
  unfold start_mo. rewrite start_eq, sec2month_value. field.
Qed.

Lemma end_mo_value (w : World) : end_mo w == 0.
Proof.
  unfold end_mo, end_. ring.
Qed.

(** X9: whatever the clock says, the x axis of a saved figure runs from
    minus the number of months to 0. *)
Theorem axis_runs_from_minus_nmonths_to_0 (w : World) (fig : Figure) :
  snowball_png (fst (run w)) = Some fig ->
  fst (xlim fig) == - inject_Z (nmonths w) /\ snd (xlim fig) == 0.
Proof.
  intros Hfig. destruct (run_saved w fig Hfig) as [_ ->].
  cbn [xlim figure fst snd]. split.
  - apply start_mo_value.
  - apply end_mo_value.
Qed.

(** The theorem on the figure of [example_world]. *)
Lemma axis_runs_from_minus_nmonths_to_0_example :
  exists fig,
    snowball_png (fst (run example_world)) = Some fig
    /\ fst (xlim fig) == - inject_Z (nmonths example_world)
    /\ snd (xlim fig) == 0.
Proof.
  eexists. split; [reflexivity|].
  apply (axis_runs_from_minus_nmonths_to_0 example_world). reflexivity.
Defined.

Lemma linspace_length (lo hi : Q) (num : nat) :
  List.length (Np.linspace lo hi num) = num.
Proof.
  unfold Np.linspace. now rewrite length_map, length_seq.
Qed.

Lemma linspace_nth (lo hi : Q) (k i : nat) :
  (1 <= k)%nat -> (i <= k)%nat ->
  nth i (Np.linspace lo hi (k + 1)) 0
  == lo + inject_Z (Z.of_nat i) * ((hi - lo) / inject_Z (Z.of_nat k)).
Proof.
  intros Hk Hi. unfold Np.linspace.
  set (f := fun j : nat => if (S j =? k + 1)%nat then hi else _).
  rewrite (nth_indep _ 0 (f 0%nat)) by (rewrite length_map, length_seq; lia).
  rewrite map_nth, seq_nth by lia. cbn [plus]. unfold f.
  replace (k + 1 - 1)%nat with k by lia.
  assert (Hk0 : ~ inject_Z (Z.of_nat k) == 0).
  { change 0 with (inject_Z 0). rewrite inject_Z_injective. lia. }
  destruct (Nat.eqb_spec (S i) (k + 1)) as [E|E].
  - replace i with k by lia. field. assumption.
  - ring.
Qed.

(** X10: a saved figure has one bin edge more than months, and the
    edges are the whole numbers from minus the number of months to 0:
    every bucket is one unit of the x axis wide. *)
Theorem bin_edges_are_whole_months (w : World) (fig : Figure) :
  snowball_png (fst (run w)) = Some fig ->
  List.length (bins fig) = (Z.to_nat (nmonths w) + 1)%nat
  /\ forall i, (i <= Z.to_nat (nmonths w))%nat ->
               nth i (bins fig) 0
               == inject_Z (Z.of_nat i) - inject_Z (nmonths w).
Proof.
  intros Hfig. destruct (run_saved w fig Hfig) as [Hn ->].
  cbn [bins figure]. split; [apply linspace_length|].
  intros i Hi. rewrite linspace_nth by lia.
  rewrite start_mo_value, end_mo_value, Z2Nat.id by lia.
  field. change 0 with (inject_Z 0). rewrite inject_Z_injective. lia.
Qed.

(** The theorem on the figure of [example_world]. *)
Lemma bin_edges_are_whole_months_example :
  exists fig,
    snowball_png (fst (run example_world)) = Some fig
    /\ List.length (bins fig) = (Z.to_nat (nmonths example_world) + 1)%nat
    /\ forall i, (i <= Z.to_nat (nmonths example_world))%nat ->
                 nth i (bins fig) 0
                 == inject_Z (Z.of_nat i) - inject_Z (nmonths example_world).
Proof.
  eexists. split; [reflexivity|].
  apply (bin_edges_are_whole_months example_world). reflexivity.
Defined.

Lemma Qtrunc_floor (q : Q) : 0 <= q -> Qtrunc q = Qfloor q.
Proof.
  destruct q as [num den]. unfold Qle, Qtrunc, Qfloor. simpl. intros H0.
  apply Z.quot_div_nonneg; lia.
Qed.

(** The bin of a selected file is the whole part of its month offset
    counted from the left end of the axis. *)
Lemma bucket_floor (w : World) (x : string) :
  inside w x = true ->
  Z.of_nat (bucket w x) = Qfloor (month w x + inject_Z (nmonths w))
  /\ 0 <= month w x + inject_Z (nmonths w)
  /\ month w x + inject_Z (nmonths w) < inject_Z (nmonths w).
Proof.
  intros Hin.
  destruct (window_open w x Hin) as (Hlohi & Hn & Hlo & Hhi).
  pose proof (bin_index_bounds _ _ _ _ Hlohi Hn Hlo Hhi) as Hb.
  assert (Hneg : month w x < 0).
  { unfold inside in Hin. apply in_range_iff in Hin. unfold end_ in Hin.
    unfold month. rewrite sec2month_value.
    setoid_replace 0 with (0 * / 18398016) by ring.
    apply Qmult_lt_compat_r; [reflexivity|lra]. }
  assert (Hn0 : ~ inject_Z (nmonths w) == 0).
  { change 0 with (inject_Z 0). rewrite inject_Z_injective. lia. }
  assert (Hf : (month w x - start_mo w) / (end_mo w - start_mo w)
               * inject_Z (nmonths w)
               == month w x + inject_Z (nmonths w)).
  { rewrite start_mo_value, end_mo_value. field. assumption. }
  rewrite start_mo_value in Hlo.
  assert (H0 : 0 <= month w x + inject_Z (nmonths w)) by lra.
  split; [|split; [assumption|lra]].
  unfold bucket. rewrite Z2Nat.id by lia.
  unfold Np.bin_index. cbv zeta.
  rewrite Qtrunc_floor by (rewrite Hf; assumption).
  rewrite (Qfloor_comp _ _ Hf).
  destruct (Z.eqb_spec (Qfloor (month w x + inject_Z (nmonths w)))
                       (nmonths w)) as [E|_]; [|reflexivity].
  exfalso. pose proof (Qfloor_le (month w x + inject_Z (nmonths w))) as Hle.
  rewrite E in Hle. lra.
Qed.

(** X11: a file of the window lands in the bucket that holds its time
    stamp, counting buckets of 18398016 seconds (7 x 30.42 days) from
    the start of the window: bucket [i] holds the time stamps from
    [start + i * 18398016] on and before [start + (i + 1) * 18398016]. *)
Theorem bucket_holds_its_seconds (w : World) (x : string) (m : Z) :
  getmtime w x = Some m ->
  in_range (start (ts w) (nmonths w)) (end_ (ts w)) m = true ->
  (bucket w x < Z.to_nat (nmonths w))%nat
  /\ start (ts w) (nmonths w) + inject_Z (Z.of_nat (bucket w x)) * 18398016
     <= inject_Z m
  /\ inject_Z m
     < start (ts w) (nmonths w)
       + (inject_Z (Z.of_nat (bucket w x)) + 1) * 18398016.
Proof.
  intros Hm Hr.
  assert (Hin : inside w x = true) by now rewrite (inside_some w x m Hm).
  split; [now apply bucket_lt|].
  destruct (bucket_floor w x Hin) as (Hb & H0 & _).
  rewrite Hb.
  pose proof (Qfloor_le (month w x + inject_Z (nmonths w))) as Hle.
  pose proof (Qlt_floor (month w x + inject_Z (nmonths w))) as Hlt.
  rewrite inject_Z_plus in Hlt. change (inject_Z 1) with 1 in Hlt.
  assert (Hmonth : month w x * 18398016 == inject_Z m - ts w).
  { unfold month, value. rewrite Hm, sec2month_value. field. }
  rewrite start_eq. split; lra.
Qed.

(** The theorem on the third file of [example_world]. *)
Lemma bucket_holds_its_seconds_example :
  (bucket example_world "/home/u/Documents/sub/c.txt"
   < Z.to_nat (nmonths example_world))%nat
  /\ start (ts example_world) (nmonths example_world)
     + inject_Z (Z.of_nat (bucket example_world
                                  "/home/u/Documents/sub/c.txt"))
       * 18398016
     <= inject_Z (1573862400 - 5 * 18398016 - 5)
  /\ inject_Z (1573862400 - 5 * 18398016 - 5)
     < start (ts example_world) (nmonths example_world)
       + (inject_Z (Z.of_nat (bucket example_world
                                     "/home/u/Documents/sub/c.txt")) + 1)
         * 18398016.
Proof.
  apply (bucket_holds_its_seconds example_world); reflexivity.
Defined.

(** ** More on the enumeration *)

Lemma visited_node (root : string) (files : list string)
  (subdirs : list (string * Dir)) :
  visited root (Some (MkDir files subdirs))
  = map (pair root) files
    ++ flat_map (fun sd => visited (Posix.join root (fst sd)) (Some (snd sd)))
                subdirs.
Proof.
  unfold visited. simpl. f_equal.
  induction subdirs as [|sd subdirs IH]; simpl; [reflexivity|].
  now rewrite flat_map_app, IH.
Qed.

Lemma filter_flat_map {A B : Type} (f : B -> bool) (g : A -> list B)
  (l : list A) :
  filter f (flat_map g l) = flat_map (fun a => filter f (g a)) l.
Proof.
  induction l as [|a l IH]; simpl; [reflexivity|].
  now rewrite filter_app, IH.
Qed.

Lemma map_flat_map {A B C : Type} (f : B -> C) (g : A -> list B)
  (l : list A) :
  map f (flat_map g l) = flat_map (fun a => map f (g a)) l.
Proof.
  induction l as [|a l IH]; simpl; [reflexivity|].
  now rewrite map_app, IH.
Qed.

(** X12: the enumeration of a directory is the enumeration of its own
    files followed by the enumerations of its subdirectories, each under
    the joined path and in listing order; the skip counts add up. *)
Theorem gather_of_a_directory (root : string) (files : list string)
  (subdirs : list (string * Dir)) :
  gather root (Some (MkDir files subdirs))
  = (fst (gather root (Some (MkDir files [])))
     ++ flat_map (fun sd => fst (gather (Posix.join root (fst sd))
                                        (Some (snd sd))))
                 subdirs,
     (snd (gather root (Some (MkDir files [])))
      + list_sum (map (fun sd => snd (gather (Posix.join root (fst sd))
                                             (Some (snd sd))))
                      subdirs))%nat).
Proof.
  rewrite !gather_spec, !visited_node. cbn [fst snd flat_map].
  rewrite app_nil_r, !filter_app, map_app, length_app.
  rewrite !filter_flat_map, map_flat_map, length_flat_map. f_equal.
  - f_equal. apply flat_map_ext. intros sd. now rewrite gather_spec.
  - f_equal. f_equal. apply map_ext. intros sd. now rewrite gather_spec.
Qed.

Lemma length_append (a b : string) :
  String.length (a ++ b) = (String.length a + String.length b)%nat.
Proof.
  induction a as [|c a IH]; simpl; [reflexivity|]. now rewrite IH.
Qed.

Lemma join_length (a b : string) :
  (String.length (Posix.join a b) <= String.length a + String.length b + 1)%nat.
Proof.
  unfold Posix.join.
  destruct (String.prefix "/" b); [lia|].
  destruct (String.eqb a "" || Posix.endswith_sep a)%bool;
    rewrite ?length_append; simpl; lia.
Qed.

(** X13: no gathered file name has more than 256 characters: the test
    of line 40 leaves at most 255 for the path and the name, and the
    join adds at most the separator. *)
Theorem gathered_names_have_at_most_256 (root : string) (tree : option Dir)
  (x : string) :
  In x (fst (gather root tree)) -> (String.length x <= 256)%nat.
Proof.
  rewrite gather_spec. cbn [fst]. intros Hx.
  apply in_map_iff in Hx. destruct Hx as [[path name] [<- Hpn]].
  apply filter_In in Hpn. destruct Hpn as [_ Hshort].
  unfold short in Hshort. cbn [fst snd] in Hshort.
  apply Nat.ltb_lt in Hshort.
  pose proof (join_length path name). unfold joined. cbn [fst snd]. lia.
Qed.

(** The theorem on the file of 256 characters that is kept. *)
Lemma gathered_names_have_at_most_256_example :
  (String.length (Posix.join "/r" name253) <= 256)%nat.
Proof.
  apply (gathered_names_have_at_most_256 "/r" (Some (MkDir [name253] []))).
  vm_compute. now left.
Defined.








(** ** What the run does not read *)

Lemma vectorize_otypes_ext (f g : string -> option Z) (xs : list string) :
  (forall x, In x xs -> f x = g x) ->
  Np.vectorize_otypes f xs = Np.vectorize_otypes g xs.
Proof.
  induction xs as [|x xs IH]; intros Hfg; simpl; [reflexivity|].
  rewrite <- (Hfg x) by now left.
  rewrite IH; [reflexivity|]. intros y Hy. apply Hfg. now right.
Qed.

(** X15: a run reads the time stamps of the gathered files and the
    sizes of the files in the window, and nothing else: two worlds with
    the same settings, tree and clock that agree on those reads run
    alike, line for line and image for image.  In particular a file
    skipped for its length is never looked at. *)
Theorem run_depends_on_what_it_reads (w w' : World) :
  root w = root w' -> nmonths w = nmonths w' -> tree w = tree w' ->
  ts w = ts w' ->
  (forall x, In x (fns w) -> getmtime w x = getmtime w' x) ->
  (forall x m,
      In x (fns w) -> getmtime w x = Some m ->
      in_range (start (ts w) (nmonths w)) (end_ (ts w)) m = true ->
      getsize w x = getsize w' x) ->
  run w = run w'.
Proof.
  intros Hroot Hn Htree Hts Hm Hs.
  assert (Hfns : fns w' = fns w) by (unfold fns; now rewrite Hroot, Htree).
  assert (Hsaid : said_by_gather w' = said_by_gather w)
    by (unfold said_by_gather; now rewrite Hroot, Htree).
  rewrite !run_steps, Hfns, Hsaid, !analyse_steps.
  unfold figure. rewrite <- Hroot, <- Hn, <- Hts.
  rewrite <- (vectorize_otypes_ext (getmtime w) (getmtime w')) by assumption.
  destruct (Np.vectorize_otypes (getmtime w) (fns w)) as [mtimes|e] eqn:Em;
    [|reflexivity].
  apply vectorize_otypes_inv_ok in Em. destruct Em as [Hok ->].
  cbn zeta. selection w.
  assert (Hsz : Np.vectorize (getsize w') (filter (inside w) (fns w))
                = Np.vectorize (getsize w) (filter (inside w) (fns w))).
  { unfold Np.vectorize.
    destruct (filter (inside w) (fns w)) as [|k ks] eqn:Ek; [reflexivity|].
    rewrite <- Ek. symmetry. apply vectorize_otypes_ext.
    intros x Hx. apply filter_In in Hx. destruct Hx as [Hx Hin].
    destruct (inside_in_range w x (Hok x Hx) Hin) as [m [Hmx Hr]].
    now apply (Hs x m). }
  rewrite Hsz. reflexivity.
Qed.

(** The theorem on [example_world] and [guarded_world], which differ on
    a path that is not gathered. *)
Lemma run_depends_on_what_it_reads_example :
  run example_world = run guarded_world.
Proof.
  apply (run_depends_on_what_it_reads example_world guarded_world);
    try reflexivity.
  intros x m Hx _ _.
  repeat (destruct Hx as [<-|Hx]; [reflexivity|]). destruct Hx.
Defined.
